(** * nanonis_io: a shallow embedding of [SpmImage] (src/nanonis_io.py)

    The reader of Nanonis scan files: a text header of [:KEY:] blocks closed
    by [:SCANIT_END:], then a payload of big-endian 32-bit floats.

    Python [str] values read through [encoding='latin1'] and Python [bytes]
    are both sequences of 8-bit characters, so both are [string] here.
    Dictionaries are [gmap string _]; exceptions are an explicit [outcome]. *)

From Stdlib Require Import Ascii ZArith Lia.
From stdpp Require Import base option list strings gmap.

Open Scope Z_scope.

(** ** Exceptions and the outcome monad *)

(** The exception classes the module can raise: four from failed built-in
    and NumPy operations, one from the explicit [raise] of
    [_get_channel_names_units]. *)
Inductive exn : Set :=
  | KeyError (k : string)
  | ValueError
  | IndexError
  | OverflowError
  | NotImplementedError.

Inductive outcome (A : Type) : Type :=
  | Returned (a : A)
  | Raised (e : exn).
Arguments Returned {A} a.
Arguments Raised {A} e.

#[global] Instance outcome_ret : MRet outcome := λ A a, Returned a.
#[global] Instance outcome_bind : MBind outcome := λ A B f m,
  match m with
  | Returned a => f a
  | Raised e => Raised e
  end.

Definition raises {A} (m : outcome A) : Prop := ∃ e, m = Raised e.

(** [d[k]] on a dictionary. *)
Definition getitem {V} (d : gmap string V) (k : string) : outcome V :=
  match d !! k with
  | Some v => Returned v
  | None => Raised (KeyError k)
  end.

(** [l[i]] on a list, for a literal index [i >= 0]. *)
Definition list_getitem {A} (l : list A) (i : nat) : outcome A :=
  match l !! i with
  | Some a => Returned a
  | None => Raised IndexError
  end.

(** [[f(x) for x in l]]: the first failing element aborts the comprehension. *)
Fixpoint comprehension {A B} (f : A → outcome B) (l : list A) : outcome (list B) :=
  match l with
  | [] => Returned []
  | x :: l' => y ← f x; ys ← comprehension f l'; Returned (y :: ys)
  end.

(** ** Characters and strings *)

Module Py.

Definition code (c : ascii) : Z := Z.of_N (N_of_ascii c).

Definition TAB : ascii := "009".
Definition LF : ascii := "010".
Definition CR : ascii := "013".
(** The one-character string ["\n"]. *)
Definition nl : string := String LF "".

(** [str.isspace] on the Latin-1 range: TAB..CR, FS..US, SPACE, NEL, NBSP. *)
Definition str_isspace (c : ascii) : bool :=
  let n := code c in
  ((9 <=? n) && (n <=? 13)) || ((28 <=? n) && (n <=? 32))
  || (n =? 133) || (n =? 160).

(** Whitespace of [bytes.strip]: TAB..CR and SPACE only. *)
Definition bytes_isspace (c : ascii) : bool :=
  let n := code c in
  ((9 <=? n) && (n <=? 13)) || (n =? 32).

Definition nonempty (s : string) : bool :=
  match s with "" => false | _ => true end.

Section Strip.
Variable sp : ascii → bool.

Fixpoint lstrip (s : string) : string :=
  match s with
  | String c s' => if sp c then lstrip s' else s
  | "" => ""
  end.

Fixpoint rstrip (s : string) : string :=
  match s with
  | String c s' =>
      let r := rstrip s' in
      if sp c && negb (nonempty r) then "" else String c r
  | "" => ""
  end.

Definition strip (s : string) : string := rstrip (lstrip s).

(** [s.split()]: the maximal runs of non-whitespace characters. [cur]
    holds the current run, reversed. *)
Fixpoint split_go (cur : string) (s : string) : list string :=
  match s with
  | String c s' =>
      if sp c then
        (if nonempty cur then String.rev cur :: split_go "" s'
         else split_go "" s')
      else split_go (String c cur) s'
  | "" => if nonempty cur then [String.rev cur] else []
  end.

Definition split : string → list string := split_go "".
End Strip.

Definition str_strip : string → string := strip str_isspace.
Definition bytes_strip : string → string := strip bytes_isspace.
Definition str_split : string → list string := split str_isspace.

(** [s.split(sep)] for a one-character separator: never an empty list. *)
Fixpoint split_on (sep : ascii) (s : string) : list string :=
  match s with
  | String c s' =>
      if Ascii.eqb c sep then "" :: split_on sep s'
      else match split_on sep s' with
           | t :: ts => String c t :: ts
           | [] => [String c ""]
           end
  | "" => [""]
  end.

(** [s.replace(a, b)] for single characters, and [s.replace(a, '')]. *)
Fixpoint replace (a b : ascii) (s : string) : string :=
  match s with
  | String c s' => String (if Ascii.eqb c a then b else c) (replace a b s')
  | "" => ""
  end.

Fixpoint remove (a : ascii) (s : string) : string :=
  match s with
  | String c s' => if Ascii.eqb c a then remove a s' else String c (remove a s')
  | "" => ""
  end.

(** [str.lower] on the Latin-1 range: A..Z and the accented capitals
    (0xC0..0xDE but the multiplication sign 0xD7) move up by 32. *)
Definition lower_char (c : ascii) : ascii :=
  let n := code c in
  if ((65 <=? n) && (n <=? 90))
     || ((192 <=? n) && (n <=? 222) && negb (n =? 215))
  then ascii_of_N (Z.to_N (n + 32)) else c.

Fixpoint lower (s : string) : string :=
  match s with
  | String c s' => String (lower_char c) (lower s')
  | "" => ""
  end.

(** [s[1:-1]]. *)
Fixpoint drop_last (s : string) : string :=
  match s with
  | String c s' => match s' with "" => "" | _ => String c (drop_last s') end
  | "" => ""
  end.

Definition slice_1_m1 (s : string) : string :=
  match s with
  | String _ s' => drop_last s'
  | "" => ""
  end.

(** [re.compile(r"^:.*:").match(line)]: a colon, then any run of
    characters other than newline, then a colon. *)
Fixpoint dot_star_colon (s : string) : bool :=
  match s with
  | String c s' =>
      if Ascii.eqb c ":" then true
      else if Ascii.eqb c LF then false
      else dot_star_colon s'
  | "" => false
  end.

Definition caption_match (line : string) : bool :=
  match line with
  | String c rest => Ascii.eqb c ":" && dot_star_colon rest
  | "" => false
  end.

End Py.

(** ** The header lexer: [_parse_header] *)

Definition SCANIT_END : string := ":SCANIT_END:".

Definition _string_prettify (s : string) : string :=
  Py.str_strip (Py.remove ":" (Py.replace ">" "_" s)).

(** The loop's variables: [self.header], [key], [contents]; and two
    observations of its control flow, the number of lines taken from the
    iterator and whether the loop left by [break]. *)
Record lexer := Lexer {
  lx_header : gmap string string;
  lx_key : string;
  lx_contents : string;
  lx_taken : nat;
  lx_broke : bool
}.

(** [if key: self.header[key] = contents.strip()] *)
Definition flush (h : gmap string string) (key contents : string)
  : gmap string string :=
  if Py.nonempty key then <[key := Py.str_strip contents]> h else h.

Fixpoint header_loop (h : gmap string string) (key contents : string)
    (taken : nat) (f : list string) : lexer :=
  match f with
  | [] => Lexer h key contents taken false
  | raw :: f' =>
      let line := Py.str_strip raw in
      if String.eqb line SCANIT_END then
        Lexer (flush h key contents) key contents (S taken) true
      else if Py.caption_match line then
        header_loop (flush h key contents)
          (_string_prettify (Py.slice_1_m1 line)) "" (S taken) f'
      else
        header_loop h key
          ((if Py.nonempty contents then contents +:+ Py.nl else contents)
           +:+ line)
          (S taken) f'
  end.

Definition _parse_header (h : gmap string string) (f : list string)
  : outcome (gmap string string) :=
  Returned (lx_header (header_loop h "" "" 0 f)).

(** ** The source file, in text mode and in binary mode *)

(** [open(filename, 'r', encoding='latin1')] iterated line by line. Latin-1
    decoding is the identity on 8-bit characters; universal newlines end a
    line at LF, at CR LF and at a lone CR, and hand each one over as LF. *)
Fixpoint text_lines (s : string) : list string :=
  match s with
  | String c s' =>
      if Ascii.eqb c Py.LF then Py.nl :: text_lines s'
      else if Ascii.eqb c Py.CR then
        match s' with
        | String c' s'' =>
            if Ascii.eqb c' Py.LF then Py.nl :: text_lines s''
            else Py.nl :: text_lines s'
        | "" => [Py.nl]
        end
      else
        match text_lines s' with
        | l :: ls => String c l :: ls
        | [] => [String c ""]
        end
  | "" => []
  end.

(** [f.readline()] on a file opened with ['rb']: the bytes up to and
    including the next LF, or what is left; [b''] at end of file, where the
    position stays. The second component is the file after the call. *)
Fixpoint readline (f : string) : string * string :=
  match f with
  | String c f' =>
      if Ascii.eqb c Py.LF then (String c "", f')
      else let '(l, r) := readline f' in (String c l, r)
  | "" => ("", "")
  end.

(** [f.read(4)]: at most four bytes. *)
Definition read4 (f : string) : string :=
  match f with
  | String _ (String _ (String _ (String _ f'))) => f'
  | _ => ""
  end.

(** The [while True] loop of [load] that looks for the terminator in binary
    mode. Each unit of [fuel] is one iteration; [None] says that the loop is
    still running when the fuel is spent. *)
Fixpoint seek_scanit_end (fuel : nat) (f : string) : option string :=
  match fuel with
  | O => None
  | S fuel' =>
      let '(line, f') := readline f in
      if String.eqb (Py.bytes_strip line) SCANIT_END then Some f'
      else seek_scanit_end fuel' f'
  end.

(** The lines a binary-mode reader sees before the end of file. *)
Fixpoint binary_lines (f : string) : list string :=
  match f with
  | String c f' =>
      if Ascii.eqb c Py.LF then String c "" :: binary_lines f'
      else match binary_lines f' with
           | l :: ls => String c l :: ls
           | [] => [String c ""]
           end
  | "" => []
  end.

(** ** Metadata: [_parse_metadata] and [_get_channel_names_units] *)

(** [int(x)] on a string: surrounding whitespace is dropped, then an
    optional sign and decimal digits, single underscores allowed between
    digits. In Latin-1 the only decimal digits are [0]..[9]. *)
Fixpoint int_digits (acc : Z) (after_digit : bool) (s : string) : option Z :=
  match s with
  | String c s' =>
      match Ascii.is_nat c with
      | Some d => int_digits (acc * 10 + Z.of_nat d) true s'
      | None =>
          if Ascii.eqb c "_" && after_digit then int_digits acc false s'
          else None
      end
  | "" => if after_digit then Some acc else None
  end.

Definition int_literal (s : string) : option Z :=
  match s with
  | String "+" s' => int_digits 0 false s'
  | String "-" s' => Z.opp <$> int_digits 0 false s'
  | _ => int_digits 0 false s
  end.

(** The number of digits of a literal. *)
Fixpoint digit_count (s : string) : nat :=
  match s with
  | String c s' =>
      match Ascii.is_nat c with
      | Some _ => S (digit_count s')
      | None => digit_count s'
      end
  | "" => O
  end.

(** CPython (3.11 and later, with the default setting) refuses a decimal
    literal of more than 4300 digits. *)
Definition int_max_str_digits : nat := 4300.

Definition int (x : string) : outcome Z :=
  let literal := Py.str_strip x in
  if (int_max_str_digits <? digit_count literal)%nat then Raised ValueError
  else match int_literal literal with
       | Some n => Returned n
       | None => Raised ValueError
       end.

(** [self.scan_direction = "up" if self.header['SCAN_DIR'] == "up" else "down"] *)
Definition scan_direction_of (v : string) : string :=
  if String.eqb v "up" then "up" else "down".

(** [list(range(start, stop, 2))] for [start] 0 or 1 and [stop = 2 * n]. *)
Definition range2 (start : Z) (n : nat) : list Z :=
  (λ i, start + 2 * Z.of_nat i) <$> seq 0 n.

(** The loop of [_get_channel_names_units] over [enumerate(lines)]. The
    [table_data] list only feeds the printed table, which reads the rows and
    cannot raise: [lines] is never empty, so [table_data[0]] exists and every
    column of [zip( *table_data)] has an element. *)
Fixpoint channel_loop (i : nat) (names units : list string)
    (lines : list string) : outcome (list string * list string) :=
  match lines with
  | [] => Returned (names, units)
  | line :: lines' =>
      let entries := Py.str_split line in
      if (1 <? length entries)%nat && negb (i =? 0)%nat then
        e1 ← list_getitem entries 1;
        let names := names ++ [Py.replace "_" " " e1] in
        e2 ← list_getitem entries 2;
        let units := units ++ [e2] in
        e3 ← list_getitem entries 3;
        if negb (String.eqb (Py.lower e3) "both") then Raised NotImplementedError
        else channel_loop (S i) names units lines'
      else channel_loop (S i) names units lines'
  end.

Definition channel_table (data_info : string)
  : outcome (list string * list string) :=
  channel_loop 0 [] [] (Py.split_on Py.LF data_info).

Definition _get_channel_names_units (header : gmap string string)
  : outcome (list string * list string) :=
  data_info ← getitem header "DATA_INFO";
  channel_table data_info.

Section Metadata.
(** Two library functions stay abstract: [float(x)] on a string, with
    the type of Python floats, and
    [datetime.strptime(s, "%d.%m.%Y %H:%M:%S")]; [None] is their
    [ValueError]. *)
Context {float_t datetime_t : Type}.
Variable float_of : string → option float_t.
Variable strptime : string → option datetime_t.

Definition float (x : string) : outcome float_t :=
  match float_of x with
  | Some v => Returned v
  | None => Raised ValueError
  end.

Record metadata := Metadata {
  scanfile : string;
  scanpixels : list Z;
  scansize : list float_t;
  center : list float_t;
  angle : float_t;
  scan_direction : string;
  bias : float_t;
  z_feedback : bool;
  z_feedback_setpoint : float_t;
  z_feedback_setpoint_unit : string;
  z : option float_t;
  start_time : datetime_t;
  acquisition_time : float_t;
  channel_names : list string;
  channel_units : list string;
  channel_indices_fwd : list Z;
  channel_indices_bwd : list Z
}.

(** Lines 88 to 90: the three list comprehensions. *)
Definition scan_pixels_of (v : string) : outcome (list Z) :=
  comprehension int (Py.str_split v).
Definition scan_range_of (v : string) : outcome (list float_t) :=
  comprehension float (Py.str_split v).
Definition scan_offset_of (v : string) : outcome (list float_t) :=
  comprehension float (Py.str_split v).

(** Lines 96 to 100: feedback flag, setpoint and setpoint unit. *)
Definition z_controller_of (v : string) : outcome (bool * float_t * string) :=
  let z_data := Py.split_on Py.TAB v in
  d8 ← list_getitem z_data 8;
  let z_feedback := String.eqb d8 "1" in
  d9 ← list_getitem z_data 9;
  let z_setpoint := Py.str_split d9 in
  s0 ← list_getitem z_setpoint 0;
  setpoint ← float s0;
  unit ← (if (1 <? length z_setpoint)%nat then list_getitem z_setpoint 1
          else Returned "");
  Returned (z_feedback, setpoint, unit).

(** [print_header_keys_table] only prints, and cannot raise. *)
Definition _parse_metadata (header : gmap string string) : outcome metadata :=
  scanfile ← getitem header "SCAN_FILE";
  scanpixels ← getitem header "SCAN_PIXELS" ≫= scan_pixels_of;
  scansize ← getitem header "SCAN_RANGE" ≫= scan_range_of;
  center ← getitem header "SCAN_OFFSET" ≫= scan_offset_of;
  angle ← getitem header "SCAN_ANGLE" ≫= float;
  scan_dir ← getitem header "SCAN_DIR";
  let scan_direction := scan_direction_of scan_dir in
  bias ← getitem header "BIAS" ≫= float;
  zc ← getitem header "Z-CONTROLLER" ≫= z_controller_of;
  let '(z_feedback, setpoint, unit) := zc in
  z ← match header !! "Z-CONTROLLER_Z (m)" with
      | Some v => x ← float v; Returned (Some x)
      | None => Returned None
      end;
  rec_date ← getitem header "REC_DATE";
  rec_time ← getitem header "REC_TIME";
  start_time ← match strptime (rec_date +:+ " " +:+ rec_time) with
               | Some t => Returned t
               | None => Raised ValueError
               end;
  acquisition_time ← getitem header "ACQ_TIME" ≫= float;
  '(names, units) ← _get_channel_names_units header;
  Returned (Metadata scanfile scanpixels scansize center angle
              scan_direction bias z_feedback setpoint unit z start_time
              acquisition_time names units
              (range2 0 (length names)) (range2 1 (length names))).
End Metadata.

(** ** The binary payload: [_read_binary_data] *)

(** A NumPy array in C order: its shape and its flat buffer. A [>f4] item
    is kept as the 32 bits it was read from, most significant byte first. *)
Record ndarray := NdArray { shape : list Z; buf : list Z }.

Record grids := Grids { forward : ndarray; backward : ndarray }.

Definition f4_be (b0 b1 b2 b3 : ascii) : Z :=
  ((Py.code b0 * 256 + Py.code b1) * 256 + Py.code b2) * 256 + Py.code b3.

Definition intp_min : Z := - 2 ^ 63.
Definition intp_max : Z := 2 ^ 63 - 1.
Definition intp (n : Z) : bool := (intp_min <=? n) && (n <=? intp_max).

(** Whole four-byte items are read until [count] of them are in, or fewer
    than four bytes are left; a negative [count] never runs out. *)
Fixpoint read_f4 (count : Z) (f : string) : list Z * string :=
  match f with
  | String b0 (String b1 (String b2 (String b3 f'))) =>
      if count =? 0 then ([], f)
      else let '(vs, r) := read_f4 (count - 1) f' in (f4_be b0 b1 b2 b3 :: vs, r)
  | _ => ([], f)
  end.

(** NumPy multiplies sizes one factor at a time and checks every product
    against the largest [npy_intp]; [None] is an overflow. *)
Fixpoint mul_sizes (acc : Z) (dims : list Z) : option Z :=
  match dims with
  | [] => Some acc
  | d :: dims' =>
      if intp_max <? acc * d then None else mul_sizes (acc * d) dims'
  end.

(** The size in bytes of an array of [>f4] items with the dimensions
    [dims], as NumPy computes it when it makes an array or a view: the item
    size times the dimensions that are not zero. *)
Definition nbytes (dims : list Z) : option Z :=
  mul_sizes 4 (filter (λ d, d ≠ 0) dims).

(** [np.fromfile(f, dtype='>f4', count=count)]: a short file gives a short
    array, without an error. A count that is no C [ssize_t] is refused, and
    so is a count whose array would have too many bytes for [npy_intp].
    Running out of memory is not modelled. *)
Definition fromfile (f : string) (count : Z) : outcome (list Z * string) :=
  if intp count then
    match nbytes [count] with
    | Some _ => Returned (read_f4 count f)
    | None => Raised ValueError
    end
  else Raised OverflowError.

(** The view NumPy makes over a buffer: refused when the byte size of the
    shape overflows. *)
Definition view (dims : list Z) (raw : list Z) : outcome ndarray :=
  match nbytes dims with
  | Some _ => Returned (NdArray dims raw)
  | None => Raised ValueError
  end.

(** [raw.reshape(newshape)] on a flat array: a negative entry of the shape
    stands for the one dimension NumPy infers; the known dimensions are
    multiplied with the overflow check, and the product has to match the
    size of the array. *)
Definition reshape (raw : list Z) (newshape : list Z) : outcome ndarray :=
  let size := Z.of_nat (length raw) in
  if negb (forallb intp newshape) then Raised ValueError
  else
    match mul_sizes 1 (filter (λ d, 0 ≤ d) newshape) with
    | None => Raised ValueError
    | Some s_known =>
        match length (filter (λ d, d < 0) newshape) with
        | O =>
            if size =? s_known then view newshape raw
            else Raised ValueError
        | 1%nat =>
            if (s_known =? 0) || negb (size mod s_known =? 0)
            then Raised ValueError
            else view ((λ d, if d <? 0 then size / s_known else d)
                         <$> newshape) raw
        | _ => Raised ValueError
        end
    end.

(** [a[i, d, :, :]] for [0 <= i] and [0 <= d] on a four-dimensional array. *)
Definition plane (a : ndarray) (i d : Z) : outcome ndarray :=
  match shape a with
  | [s0; s1; s2; s3] =>
      if (i <? s0) && (d <? s1) then
        Returned (NdArray [s2; s3]
                    (take (Z.to_nat (s2 * s3))
                       (drop (Z.to_nat ((i * s1 + d) * (s2 * s3))) (buf a))))
      else Raised IndexError
  | _ => Raised IndexError
  end.

(** [a[r, c]] on a two-dimensional array, for [0 <= r] and [0 <= c]. *)
Definition item2 (a : ndarray) (r c : Z) : option Z :=
  match shape a with
  | [rows; cols] =>
      if (r <? rows) && (c <? cols) then buf a !! Z.to_nat (r * cols + c)
      else None
  | _ => None
  end.

(** The loop over [enumerate(self.channel_names)]. *)
Fixpoint bind_channels (reshaped : ndarray) (i : Z) (names : list string)
    (data : gmap string grids) : outcome (gmap string grids) :=
  match names with
  | [] => Returned data
  | channel_name :: names' =>
      fwd ← plane reshaped i 0;
      bwd ← plane reshaped i 1;
      bind_channels reshaped (i + 1) names' (<[channel_name := Grids fwd bwd]> data)
  end.

(** The result pairs [self.data] with the file as the reads left it. *)
Definition _read_binary_data (scanpixels : list Z) (channel_names : list string)
    (f : string) : outcome (gmap string grids * string) :=
  match scanpixels with
  | [x_pixels; y_pixels] =>
      let num_channels_actual := Z.of_nat (length channel_names) in
      let f := read4 f in
      let total_values := x_pixels * y_pixels * num_channels_actual * 2 in
      '(raw, f) ← fromfile f total_values;
      reshaped ← reshape raw [num_channels_actual; 2; y_pixels; x_pixels];
      data ← bind_channels reshaped 0 channel_names ∅;
      Returned (data, f)
  | _ => Raised ValueError
  end.

(** ** The orchestrator: [load] *)

Section Load.
Context {float_t datetime_t : Type}.
Variable float_of : string → option float_t.
Variable strptime : string → option datetime_t.

Record SpmImage := Image {
  header : gmap string string;
  meta : @metadata float_t datetime_t;
  data : option (gmap string grids)
}.

(** The text-mode phases: they always end. *)
Definition load_header (file : string)
  : outcome (gmap string string * @metadata float_t datetime_t) :=
  header ← _parse_header ∅ (text_lines file);
  meta ← _parse_metadata float_of strptime header;
  Returned (header, meta).

(** [fuel] bounds the iterations of the binary-mode [while True]; the
    result is [None] when the loop is still running after that many. *)
Definition load (fuel : nat) (file : string) (header_only : bool)
  : option (outcome SpmImage) :=
  match load_header file with
  | Raised e => Some (Raised e)
  | Returned (header, meta) =>
      if header_only then Some (Returned (Image header meta None))
      else
        match seek_scanit_end fuel file with
        | None => None
        | Some f =>
            Some ('(data, _) ← _read_binary_data (scanpixels meta)
                                 (channel_names meta) f;
                  Returned (Image header meta (Some data)))
        end
  end.
End Load.

(** [sep.join(ls)] *)
Definition join (sep : string) (ls : list string) : string :=
  match ls with
  | l :: ls' => foldl (λ acc x, acc +:+ sep +:+ x) l ls'
  | [] => ""
  end.

(** ** Reporting: [print_header_keys_table]

    The method prints the keys of [self.header] as a table filled column
    by column. Here it takes [items = list(self.header.keys())], the keys
    in insertion order, and returns the lines it prints; [None] stands for
    the [ZeroDivisionError] of [// num_columns]. *)

(** [list(range(n))] as integers. *)
Definition py_range (n : Z) : list Z := Z.of_nat <$> seq 0 (Z.to_nat n).

(** [f"{item:<{width}}"]: the item, then spaces up to the width. *)
Definition ljust (width : nat) (item : string) : string :=
  item +:+ foldr String "" (replicate (width - String.length item) " "%char).

(** The [row_items] of every row. The index [r + c * num_rows] is never
    negative inside the two loops. *)
Definition keys_table_rows (items : list string) (num_columns : Z)
  : list (list string) :=
  let num_rows := (Z.of_nat (length items) + num_columns - 1) `div` num_columns in
  (λ r, (λ c, let idx := r + c * num_rows in
              if idx <? Z.of_nat (length items)
              then default "" (items !! Z.to_nat idx) else "")
          <$> py_range num_columns)
    <$> py_range num_rows.

Definition print_header_keys_table (items : list string) (num_columns : Z)
  : option (list string) :=
  match items with
  | [] => Some ["No header keys found."]
  | _ =>
      let max_key_len := (max_list (String.length <$> items) + 2)%nat in
      if num_columns =? 0 then None
      else Some ([Py.nl +:+ "--- Available Header Keys ---"]
                 ++ ((λ row_items, join " | " (ljust max_key_len <$> row_items))
                       <$> keys_table_rows items num_columns)
                 ++ ["-----------------------------" +:+ Py.nl])
  end.

(** ** Reporting: the table printed by [_get_channel_names_units]

    Lines 155 to 170, which print [table_data] after the loop. The result
    is the list of printed lines. Two steps could raise: [max] of an empty
    sequence ([ValueError]) and [table_data[0]] ([IndexError]). *)





(** ** Reading the channel table row by row

    The rows of the table as the specification describes them, to compare
    with what [channel_loop] does. *)

(** The lines after the first that have more than one token. *)
Definition data_rows (data_info : string) : list (list string) :=
  filter (λ e, 1 < length e)%nat
    (tail (Py.str_split <$> Py.split_on Py.LF data_info)).

(** A row whose token 3 exists and is ["both"] in any letter case. *)
Definition row_supported (e : list string) : bool :=
  match e !! 3%nat with
  | Some mode => String.eqb (Py.lower mode) "both"
  | None => false
  end.

Definition row_name (e : list string) : string :=
  Py.replace "_" " " (default "" (e !! 1%nat)).

Definition row_unit (e : list string) : string :=
  default "" (e !! 2%nat).

(** ** Describing a payload

    A payload laid out item by item, to state what the decoder reads. *)

(** The four bytes of an item, in file order. *)
Definition item : Type := ascii * ascii * ascii * ascii.

Definition f4 (w : item) : Z :=
  let '(b0, b1, b2, b3) := w in f4_be b0 b1 b2 b3.

(** The 32 bits of an item read big-endian: the first byte of the file is
    the most significant one. *)
Definition big_endian (w : item) : Z :=
  let '(b0, b1, b2, b3) := w in
  Py.code b0 * 2 ^ 24 + Py.code b1 * 2 ^ 16 + Py.code b2 * 2 ^ 8 + Py.code b3.

(** The items [ws] written out one after the other, followed by [rest]. *)
Fixpoint pack (ws : list item) (rest : string) : string :=
  match ws with
  | (b0, b1, b2, b3) :: ws' =>
      String b0 (String b1 (String b2 (String b3 (pack ws' rest))))
  | [] => rest
  end.

(** How many whole items a stream holds behind its four signature bytes. *)
Definition payload_floats (f : string) : Z :=
  Z.of_nat ((String.length f - 4) / 4).

(** The slab of [y * x] items number [p] in a flat buffer. *)
Definition slab (vals : list Z) (y x p : Z) : list Z :=
  take (Z.to_nat (y * x)) (drop (Z.to_nat (p * (y * x))) vals).

(** ** Sample files

    Small files in the format, to run the definitions on. In the samples
    [verbatim] stands in for the two abstract library functions: it keeps
    the text of a number or of a timestamp as its value. *)

Definition verbatim (x : string) : option string := Some x.

Definition unlines (ls : list string) : string :=
  foldr (λ l s, l +:+ Py.nl +:+ s) "" ls.

Definition tabbed (ls : list string) : string :=
  match ls with
  | l :: ls' => foldl (λ acc x, acc +:+ String Py.TAB x) l ls'
  | [] => ""
  end.

(** [bytes([n0, n1, ...])] *)
Definition bytes (l : list Z) : string :=
  foldr (λ n s, String (ascii_of_N (Z.to_N n)) s) "" l.

Definition sample_fields : list string :=
  [ ":REC_DATE:"; " 15.03.2024"; ":REC_TIME:"; " 14:30:05";
    ":ACQ_TIME:"; "120.5";
    ":SCAN_PIXELS:"; "2 3";
    ":SCAN_FILE:"; "scan001.sxm";
    ":SCAN_RANGE:"; "1.0E-8 1.5E-8";
    ":SCAN_OFFSET:"; "0.0E+0 0.0E+0";
    ":SCAN_ANGLE:"; "0.0E+0";
    ":SCAN_DIR:"; "up";
    ":BIAS:"; "5.0E-1";
    ":Z-CONTROLLER:";
    tabbed ["Name"; "on"; "Setpoint"; "P-gain"; "I-gain"; "T-const";
            "log Current"; "Z"; "1"; "1.000E-10 A"; "6.0E-12 m"];
    ":DATA_INFO:";
    tabbed ["Channel"; "Name"; "Unit"; "Direction"; "Calibration"; "Offset"];
    tabbed ["14"; "Z"; "m"; "both"; "9.0E-9"; "0.0E+0"];
    "" ].

(** Four signature bytes, then the twelve items 1 to 12. *)
Definition sample_payload : string :=
  bytes ([10; 10; 26; 4]
         ++ mjoin ((λ k, [0; 0; 0; k]) <$> [1; 2; 3; 4; 5; 6; 7; 8; 9; 10; 11; 12])).

Definition sample_file : string :=
  unlines (sample_fields ++ [SCANIT_END]) +:+ sample_payload.

Definition sample_header : gmap string string :=
  lx_header (header_loop ∅ "" "" 0 (text_lines sample_file)).

Definition sample_meta : @metadata string string :=
  Metadata "scan001.sxm" [2; 3] ["1.0E-8"; "1.5E-8"] ["0.0E+0"; "0.0E+0"]
    "0.0E+0" "up" "5.0E-1" true "1.000E-10" "A" None
    "15.03.2024 14:30:05" "120.5" ["Z"] ["m"] [0] [1].

(** Four signature bytes, then twelve items whose four bytes all differ:
    item [k] is the bytes [k], [16 + k], [32 + k], [48 + k]. *)
Definition mixed_items : list item :=
  (λ k, (ascii_of_nat k, ascii_of_nat (16 + k), ascii_of_nat (32 + k),
         ascii_of_nat (48 + k)))
    <$> [1; 2; 3; 4; 5; 6; 7; 8; 9; 10; 11; 12]%nat.

Definition mixed_payload : string :=
  String "010" (String "010" (String "026" (String "004" (pack mixed_items "tail")))).

(** Ten items where twelve are due. *)
Definition ten_items : string :=
  bytes ([10; 10; 26; 4]
         ++ mjoin ((λ k, [0; 0; 0; k]) <$> [1; 2; 3; 4; 5; 6; 7; 8; 9; 10])).

(** The sample with a no-break space (0xA0) in front of the terminator. *)
Definition nbsp_terminator : string := String "160" SCANIT_END.

Definition nbsp_file : string :=
  unlines (sample_fields ++ [nbsp_terminator]) +:+ sample_payload.

(** The sample header left open: a last block, no terminator, no payload. *)
Definition open_file : string :=
  unlines (sample_fields ++ [":COMMENT:"; "the header never ends"]).

(** ** Notions used to state the properties *)


(** The three kinds of line the lexer tells apart, after stripping. *)
Definition is_terminator (l : string) : Prop := Py.str_strip l = SCANIT_END.









(** A terminator line as the binary-mode scan sees it. *)
Definition is_terminator_b (l : string) : Prop := Py.bytes_strip l = SCANIT_END.

#[global] Instance is_terminator_b_dec l : Decision (is_terminator_b l).
Proof. unfold is_terminator_b. apply _. Defined.





#[global] Instance is_terminator_dec l : Decision (is_terminator l).
Proof. unfold is_terminator. apply _. Defined.

(** * Properties *)

(** ** The outcome monad *)

Lemma bind_Returned {A B} (m : outcome A) (f : A → outcome B) b :
  m ≫= f = Returned b → ∃ a, m = Returned a ∧ f a = Returned b.
Proof. destruct m as [a|e]; [eauto | discriminate]. Qed.

Lemma Returned_not_raises {A} (a : A) : ¬ raises (Returned a).
Proof. intros [e He]. discriminate. Qed.

Lemma getitem_Returned {V} (d : gmap string V) k v :
  getitem d k = Returned v → d !! k = Some v.
Proof. unfold getitem. destruct (d !! k); congruence. Qed.

Lemma getitem_Some {V} (d : gmap string V) k v :
  d !! k = Some v → getitem d k = Returned v.
Proof. unfold getitem. by intros ->. Qed.

Lemma list_getitem_short {A} (l : list A) i :
  (length l ≤ i)%nat → list_getitem l i = Raised IndexError.
Proof. intros H. unfold list_getitem. by rewrite lookup_ge_None_2. Qed.

Lemma comprehension_Returned {A B} (f : A → outcome B) l ys :
  comprehension f l = Returned ys ↔ Forall2 (λ x y, f x = Returned y) l ys.
Proof.
  revert ys. induction l as [|x l IH]; intros ys; simpl.
  - split.
    + intros [= <-]. constructor.
    + by inversion 1.
  - split.
    + intros H. apply bind_Returned in H as (y & Hy & H).
      apply bind_Returned in H as (ys' & Hys & [= <-]).
      constructor; [done | by apply IH].
    + inversion 1 as [|? y ? ys' Hy Hys]; subst.
      rewrite Hy. simpl. apply IH in Hys. by rewrite Hys.
Qed.

Lemma comprehension_Raised {A B} (f : A → outcome B) l e :
  (∀ x e', f x = Raised e' → e' = e) →
  comprehension f l = Raised e ↔ Exists (λ x, f x = Raised e) l.
Proof.
  intros Hf. induction l as [|x l IH]; simpl.
  - split; [discriminate | by inversion 1].
  - destruct (f x) as [y|e'] eqn:Hx; simpl.
    + destruct (comprehension f l) as [ys|e'] eqn:Hl; simpl.
      * split; [discriminate |].
        inversion 1; subst; [congruence |].
        apply IH in H1. discriminate.
      * split.
        -- intros [= ->]. apply Exists_cons_tl. by apply IH.
        -- inversion 1; subst; [congruence |]. apply IH in H1. congruence.
    + pose proof (Hf _ _ Hx) as ->.
      split; [intros _; by apply Exists_cons_hd | done].
Qed.

(** ** The header lexer *)

Lemma str_strip_SCANIT_END : Py.str_strip SCANIT_END = SCANIT_END.
Proof. reflexivity. Qed.

Lemma flush_no_key h contents : flush h "" contents = h.
Proof. reflexivity. Qed.

(** The loop over a text that holds no terminator: it falls off the end,
    and a continuation starts from the state it reached. *)
Lemma header_loop_app h key contents taken f g :
  Forall (λ l, Py.str_strip l ≠ SCANIT_END) f →
  header_loop h key contents taken (f ++ g) =
    let st := header_loop h key contents taken f in
    header_loop (lx_header st) (lx_key st) (lx_contents st) (lx_taken st) g.
Proof.
  intros Hf. revert h key contents taken.
  induction Hf as [|raw f Hraw _ IH]; intros h key contents taken; [done|].
  simpl. apply String.eqb_neq in Hraw. rewrite Hraw.
  destruct (Py.caption_match (Py.str_strip raw)); apply IH.
Qed.

Lemma header_loop_exhausts h key contents taken f :
  Forall (λ l, Py.str_strip l ≠ SCANIT_END) f →
  let st := header_loop h key contents taken f in
  lx_broke st = false ∧ lx_taken st = (taken + length f)%nat.
Proof.
  intros Hf. revert h key contents taken.
  induction Hf as [|raw f Hraw _ IH]; intros h key contents taken; simpl.
  - split; [done | lia].
  - apply String.eqb_neq in Hraw. rewrite Hraw.
    destruct (Py.caption_match (Py.str_strip raw));
      (edestruct IH as [-> ->]; split; [done | lia]).
Qed.

(** The header map does not depend on the line counter. *)
Lemma header_loop_taken h key contents n n' f :
  lx_header (header_loop h key contents n f)
  = lx_header (header_loop h key contents n' f).
Proof.
  revert h key contents n n'.
  induction f as [|raw f IH]; intros h key contents n n'; simpl; [done|].
  destruct (String.eqb _ SCANIT_END); [done|].
  destruct (Py.caption_match _); apply IH.
Qed.

(** While no caption has been seen ([key] is empty) the accumulated
    contents never reach the header map. *)
Lemma header_loop_no_key h contents contents' n n' f :
  lx_header (header_loop h "" contents n f)
  = lx_header (header_loop h "" contents' n' f).
Proof.
  revert contents contents' n n'.
  induction f as [|raw f IH]; intros contents contents' n n'; simpl; [done|].
  destruct (String.eqb _ SCANIT_END); [done|].
  destruct (Py.caption_match _); [|apply IH].
  rewrite !flush_no_key. apply header_loop_taken.
Qed.

Lemma header_loop_content_only h key contents n f :
  Forall (λ l, Py.str_strip l ≠ SCANIT_END
               ∧ Py.caption_match (Py.str_strip l) = false) f →
  let st := header_loop h key contents n f in
  lx_header st = h ∧ lx_key st = key.
Proof.
  intros Hf. revert contents n.
  induction Hf as [|raw f [Hraw Hcap] _ IH]; intros contents n; simpl; [done|].
  apply String.eqb_neq in Hraw. rewrite Hraw, Hcap. apply IH.
Qed.

(** C1, as the code has it: a text with no terminator line does not make
    [_parse_header] fail. The loop takes every line and returns normally;
    the header map holds the blocks that a later caption closed, and the
    last pending (key, contents) pair is left out: it is exactly what a
    terminator line, had there been one, would have stored. *)
Theorem parse_header_without_terminator (h : gmap string string) (f : list string) :
  Forall (λ l, Py.str_strip l ≠ SCANIT_END) f →
  let st := header_loop h "" "" 0 f in
  _parse_header h f = Returned (lx_header st)
  ∧ ¬ raises (_parse_header h f)
  ∧ lx_broke st = false
  ∧ lx_taken st = length f
  ∧ _parse_header h (f ++ [SCANIT_END])
    = Returned (flush (lx_header st) (lx_key st) (lx_contents st)).
Proof.
  intros Hf st. split; [done|]. split; [apply Returned_not_raises|].
  destruct (header_loop_exhausts h "" "" 0 f Hf) as [Hb Ht].
  split; [done|]. split; [done|].
  unfold _parse_header. rewrite header_loop_app by done.
  cbv zeta. unfold header_loop at 1. by rewrite str_strip_SCANIT_END.
Qed.

Lemma parse_header_without_terminator_witness :
  _parse_header ∅ [":A:"; "1"; ":K:"; "v"] = Returned (<["A" := "1"]> ∅)
  ∧ _parse_header ∅ [":A:"; "1"; ":K:"; "v"; SCANIT_END]
    = Returned (<["K" := "v"]> (<["A" := "1"]> ∅)).
Proof.
  assert (Hf : Forall (λ l, Py.str_strip l ≠ SCANIT_END) [":A:"; "1"; ":K:"; "v"])
    by (repeat constructor; by vm_compute).
  destruct (parse_header_without_terminator ∅ _ Hf) as (H1 & _ & _ & _ & H2).
  split; [exact H1 | exact H2].
Defined.

(** C1, refuted as stated: on the unterminated text [":K:", "v"] the lexer
    returns the empty map instead of failing. *)
Lemma parse_header_unterminated_returns :
  Forall (λ l, Py.str_strip l ≠ SCANIT_END) [":K:"; "v"]
  ∧ _parse_header ∅ [":K:"; "v"] = Returned ∅
  ∧ ¬ raises (_parse_header ∅ [":K:"; "v"]).
Proof.
  split; [repeat constructor; by vm_compute|].
  split; [reflexivity | apply Returned_not_raises].
Qed.

(** C10: content lines that come before the first caption are dropped.
    Taken alone they leave the header map as it was, and whatever follows
    them is lexed as if they had not been there. *)
Theorem content_before_first_caption_dropped
    (h : gmap string string) (pre rest : list string) :
  Forall (λ l, Py.str_strip l ≠ SCANIT_END
               ∧ Py.caption_match (Py.str_strip l) = false) pre →
  _parse_header h pre = Returned h
  ∧ _parse_header h (pre ++ rest) = _parse_header h rest.
Proof.
  intros Hpre. unfold _parse_header.
  destruct (header_loop_content_only h "" "" 0%nat pre Hpre) as [Hh Hk].
  split; [by rewrite Hh|].
  rewrite header_loop_app by (eapply Forall_impl; [done | by intros ? []]).
  simpl. rewrite Hh, Hk. f_equal. apply header_loop_no_key.
Qed.

Lemma content_before_first_caption_dropped_witness :
  _parse_header ∅ ["junk"; "more junk"] = Returned ∅
  ∧ _parse_header ∅ (["junk"; "more junk"] ++ [":K:"; "v"; SCANIT_END])
    = _parse_header ∅ [":K:"; "v"; SCANIT_END].
Proof.
  apply (content_before_first_caption_dropped ∅ ["junk"; "more junk"]).
  repeat constructor; by vm_compute.
Defined.

(** ** The metadata resolver *)

(** A resolved header went through every field rule. *)
Lemma parse_metadata_fields {float_t datetime_t}
    (float_of : string → option float_t)
    (strptime : string → option datetime_t) header m :
  _parse_metadata float_of strptime header = Returned m →
  (∃ v, header !! "SCAN_PIXELS" = Some v
        ∧ scan_pixels_of v = Returned (scanpixels m))
  ∧ (∃ v, header !! "SCAN_RANGE" = Some v
          ∧ scan_range_of float_of v = Returned (scansize m))
  ∧ (∃ v, header !! "SCAN_OFFSET" = Some v
          ∧ scan_offset_of float_of v = Returned (center m))
  ∧ (∃ v, header !! "SCAN_DIR" = Some v
          ∧ scan_direction m = scan_direction_of v)
  ∧ (∃ v, header !! "Z-CONTROLLER" = Some v
          ∧ z_controller_of float_of v
            = Returned (z_feedback m, z_feedback_setpoint m,
                        z_feedback_setpoint_unit m)).
Proof.
  unfold _parse_metadata. intros H.
  apply bind_Returned in H as (scanfile0 & _ & H).
  apply bind_Returned in H as (px & Hpx & H).
  apply bind_Returned in Hpx as (vpx & Hvpx & Hpx).
  apply bind_Returned in H as (rg & Hrg & H).
  apply bind_Returned in Hrg as (vrg & Hvrg & Hrg).
  apply bind_Returned in H as (off & Hoff & H).
  apply bind_Returned in Hoff as (voff & Hvoff & Hoff).
  apply bind_Returned in H as (ang & _ & H).
  apply bind_Returned in H as (dir & Hdir & H).
  apply bind_Returned in H as (bs & _ & H).
  apply bind_Returned in H as ([[fb sp] un] & Hzc & H).
  apply bind_Returned in Hzc as (vzc & Hvzc & Hzc).
  apply bind_Returned in H as (zz & _ & H).
  apply bind_Returned in H as (rd & _ & H).
  apply bind_Returned in H as (rt & _ & H).
  apply bind_Returned in H as (st & _ & H).
  apply bind_Returned in H as (acq & _ & H).
  apply bind_Returned in H as ([names units] & _ & H).
  injection H as <-. simpl.
  apply getitem_Returned in Hvpx, Hvrg, Hvoff, Hdir, Hvzc.
  repeat split; eauto.
Qed.

Lemma int_raises_ValueError x e : int x = Raised e → e = ValueError.
Proof.
  unfold int. destruct (_ <? _)%nat; [congruence|].
  destruct (int_literal _); congruence.
Qed.

Lemma float_raises_ValueError {float_t} (float_of : string → option float_t) x e :
  float float_of x = Raised e → e = ValueError.
Proof. unfold float. destruct (float_of x); congruence. Qed.

Lemma float_Returned {float_t} (float_of : string → option float_t) x y :
  float float_of x = Returned y ↔ float_of x = Some y.
Proof. unfold float. destruct (float_of x); split; congruence. Qed.

Lemma float_Raised {float_t} (float_of : string → option float_t) x :
  float float_of x = Raised ValueError ↔ float_of x = None.
Proof. unfold float. destruct (float_of x); split; congruence. Qed.

Lemma float_comprehension {float_t} (float_of : string → option float_t) l :
  (∀ xs, comprehension (float float_of) l = Returned xs
         ↔ Forall2 (λ t x, float_of t = Some x) l xs)
  ∧ (comprehension (float float_of) l = Raised ValueError
     ↔ Exists (λ t, float_of t = None) l).
Proof.
  split.
  - intros xs. rewrite comprehension_Returned.
    split; intros H; (eapply Forall2_impl; [exact H|]);
      intros t x; by rewrite float_Returned.
  - rewrite comprehension_Raised by apply float_raises_ValueError.
    split; intros H; (eapply Exists_impl; [exact H|]);
      intros t; by rewrite float_Raised.
Qed.

Lemma parse_metadata_raises {float_t datetime_t}
    (float_of : string → option float_t)
    (strptime : string → option datetime_t) header :
  (∀ m, _parse_metadata float_of strptime header ≠ Returned m) →
  raises (_parse_metadata float_of strptime header).
Proof.
  intros H. destruct (_parse_metadata _ _ _) as [m|e] eqn:E.
  - by destruct (H m).
  - by exists e.
Qed.

(** C2: the resolved scan direction is ["up"] exactly when the raw
    [SCAN_DIR] value is the literal ["up"], and ["down"] for every other
    string, ["down"], ["Up"], ["UP"] and the empty string among them. *)
Theorem scan_direction_exact {float_t datetime_t}
    (float_of : string → option float_t)
    (strptime : string → option datetime_t)
    (header : gmap string string) (v : string) (m : metadata) :
  header !! "SCAN_DIR" = Some v →
  _parse_metadata float_of strptime header = Returned m →
  (scan_direction m = "up" ↔ v = "up")
  ∧ (v ≠ "up" → scan_direction m = "down")
  ∧ Forall (λ w, scan_direction_of w = "down") ["down"; "Up"; "UP"; ""].
Proof.
  intros Hv Hm.
  apply parse_metadata_fields in Hm as (_ & _ & _ & (v' & Hv' & ->) & _).
  assert (v' = v) as -> by congruence.
  unfold scan_direction_of.
  destruct (String.eqb v "up") eqn:E.
  - apply String.eqb_eq in E as ->. repeat split; try done.
    repeat constructor.
  - apply String.eqb_neq in E. repeat split; try done.
    repeat constructor.
Qed.

(** C6, as the code has it: each of the three values is split on
    whitespace and every token is parsed, as an integer for [SCAN_PIXELS]
    and as a float for [SCAN_RANGE] and [SCAN_OFFSET]. The result has one
    number per token, however many there are, and the only failure is the
    [ValueError] of a token that does not parse. The number of tokens is
    looked at later and for [SCAN_PIXELS] only, when [_read_binary_data]
    unpacks it into two names. *)
Theorem scan_vectors_any_count {float_t datetime_t}
    (float_of : string → option float_t)
    (strptime : string → option datetime_t) :
  (∀ v,
     (∀ ns, scan_pixels_of v = Returned ns
            ↔ Forall2 (λ t n, int t = Returned n) (Py.str_split v) ns)
     ∧ (scan_pixels_of v = Raised ValueError
        ↔ Exists (λ t, int t = Raised ValueError) (Py.str_split v))
     ∧ (∀ xs, scan_range_of float_of v = Returned xs
              ↔ Forall2 (λ t x, float_of t = Some x) (Py.str_split v) xs)
     ∧ (scan_range_of float_of v = Raised ValueError
        ↔ Exists (λ t, float_of t = None) (Py.str_split v))
     ∧ (∀ xs, scan_offset_of float_of v = Returned xs
              ↔ Forall2 (λ t x, float_of t = Some x) (Py.str_split v) xs)
     ∧ (scan_offset_of float_of v = Raised ValueError
        ↔ Exists (λ t, float_of t = None) (Py.str_split v)))
  ∧ (∀ header m,
       _parse_metadata float_of strptime header = Returned m →
       ∃ vp vr vo,
         header !! "SCAN_PIXELS" = Some vp
         ∧ header !! "SCAN_RANGE" = Some vr
         ∧ header !! "SCAN_OFFSET" = Some vo
         ∧ Forall2 (λ t n, int t = Returned n) (Py.str_split vp) (scanpixels m)
         ∧ Forall2 (λ t x, float_of t = Some x) (Py.str_split vr) (scansize m)
         ∧ Forall2 (λ t x, float_of t = Some x) (Py.str_split vo) (center m))
  ∧ (∀ scanpixels names f,
       length scanpixels ≠ 2%nat →
       _read_binary_data scanpixels names f = Raised ValueError).
Proof.
  split; [|split].
  - intros v. unfold scan_pixels_of, scan_range_of, scan_offset_of.
    destruct (float_comprehension float_of (Py.str_split v)) as [Hr Hf].
    repeat split; try apply Hr; try apply Hf.
    + by rewrite comprehension_Returned.
    + by rewrite <- comprehension_Returned.
    + by rewrite comprehension_Raised by apply int_raises_ValueError.
    + by rewrite comprehension_Raised by apply int_raises_ValueError.
  - intros header m Hm.
    apply parse_metadata_fields in Hm
      as ((vp & Hvp & Hp) & (vr & Hvr & Hr) & (vo & Hvo & Ho) & _).
    exists vp, vr, vo. repeat split; try done.
    + by apply comprehension_Returned.
    + by apply (float_comprehension float_of).
    + by apply (float_comprehension float_of).
  - intros [|x [|y [|w l]]] names f Hlen; try done.
Qed.

(** C6, refuted as stated: a [SCAN_PIXELS] value of three tokens resolves
    to three integers instead of failing. *)
Lemma scan_pixels_three_tokens :
  Py.str_split "256 256 7" = ["256"; "256"; "7"]
  ∧ scan_pixels_of "256 256 7" = Returned [256; 256; 7].
Proof. split; reflexivity. Qed.

(** C7: the [Z-CONTROLLER] value is split on tabs. With fewer than ten
    elements the resolution fails. Otherwise the feedback flag says whether
    element 8 is ["1"], and element 9 is split on whitespace into the
    setpoint, parsed as a float, and a unit, which is the empty string when
    there is no second token. *)
Theorem z_controller_fields {float_t datetime_t}
    (float_of : string → option float_t)
    (strptime : string → option datetime_t) (v : string) :
  let z_data := Py.split_on Py.TAB v in
  ((length z_data < 10)%nat →
     z_controller_of float_of v = Raised IndexError
     ∧ ∀ header, header !! "Z-CONTROLLER" = Some v →
         raises (_parse_metadata float_of strptime header))
  ∧ (∀ d8 d9 t0 ts sp,
       z_data !! 8%nat = Some d8 → z_data !! 9%nat = Some d9 →
       Py.str_split d9 = t0 :: ts → float_of t0 = Some sp →
       z_controller_of float_of v
       = Returned (bool_decide (d8 = "1"), sp, default "" (head ts)))
  ∧ (∀ header m,
       header !! "Z-CONTROLLER" = Some v →
       _parse_metadata float_of strptime header = Returned m →
       ∃ d8 d9 t0,
         z_data !! 8%nat = Some d8 ∧ z_data !! 9%nat = Some d9
         ∧ Py.str_split d9 !! 0%nat = Some t0
         ∧ (z_feedback m = true ↔ d8 = "1")
         ∧ float_of t0 = Some (z_feedback_setpoint m)
         ∧ z_feedback_setpoint_unit m = default "" (Py.str_split d9 !! 1%nat)).
Proof.
  intros z_data. split; [|split].
  - intros Hlen.
    assert (Hz : z_controller_of float_of v = Raised IndexError).
    { unfold z_controller_of. fold z_data.
      destruct (decide (length z_data ≤ 8)%nat) as [H8|H8].
      - by rewrite (list_getitem_short z_data 8).
      - destruct (list_getitem z_data 8) as [d8|e] eqn:E8.
        + simpl. by rewrite (list_getitem_short z_data 9) by lia.
        + unfold list_getitem in E8.
          destruct (z_data !! 8%nat) eqn:L8; [done|].
          apply lookup_ge_None in L8. lia. }
    split; [done|]. intros header Hv. apply parse_metadata_raises.
    intros m Hm.
    apply parse_metadata_fields in Hm as (_ & _ & _ & _ & (v' & Hv' & Hzc)).
    congruence.
  - intros d8 d9 t0 ts sp H8 H9 Hsplit Hsp.
    unfold z_controller_of. fold z_data.
    assert (list_getitem z_data 8 = Returned d8) as ->
      by (unfold list_getitem; by rewrite H8).
    assert (list_getitem z_data 9 = Returned d9) as ->
      by (unfold list_getitem; by rewrite H9).
    simpl. rewrite Hsplit. simpl.
    unfold float. rewrite Hsp. simpl.
    assert (String.eqb d8 "1" = bool_decide (d8 = "1")) as ->.
    { destruct (String.eqb d8 "1") eqn:E.
      - apply String.eqb_eq in E. by rewrite bool_decide_eq_true_2.
      - apply String.eqb_neq in E. by rewrite bool_decide_eq_false_2. }
    destruct ts as [|t1 ts]; reflexivity.
  - intros header m Hv Hm.
    apply parse_metadata_fields in Hm as (_ & _ & _ & _ & (v' & Hv' & Hzc)).
    assert (v' = v) as -> by congruence.
    unfold z_controller_of in Hzc. fold z_data in Hzc.
    apply bind_Returned in Hzc as (d8 & H8 & Hzc).
    apply bind_Returned in Hzc as (d9 & H9 & Hzc).
    apply bind_Returned in Hzc as (t0 & H0 & Hzc).
    apply bind_Returned in Hzc as (sp & Hsp & Hzc).
    apply bind_Returned in Hzc as (un & Hun & [= Hfb <- <-]).
    unfold list_getitem in H8, H9, H0.
    destruct (z_data !! 8%nat) as [d8'|] eqn:L8; [|done].
    destruct (z_data !! 9%nat) as [d9'|] eqn:L9; [|done].
    injection H8 as ->. injection H9 as ->.
    destruct (Py.str_split d9) as [|t0' ts] eqn:Hs; [done|].
    injection H0 as ->.
    exists d8, d9, t0. rewrite <- Hfb, Hs. repeat split; try done.
    + by intros ?%String.eqb_eq.
    + by intros ->.
    + by apply float_Returned.
    + destruct ts as [|t1 ts]; simpl in *; [congruence|].
      unfold list_getitem in Hun. simpl in Hun. congruence.
Qed.

Lemma z_controller_fields_witness :
  z_controller_of verbatim
    (tabbed ["Name"; "on"; "Setpoint"; "P-gain"; "I-gain"; "T-const";
             "log Current"; "Z"; "1"; "1.000E-10 A"; "6.0E-12 m"])
  = Returned (true, "1.000E-10", "A")
  ∧ z_controller_of verbatim (tabbed ["log Current"; "1"; "1.000E-10 A"])
    = Raised IndexError.
Proof.
  split.
  - destruct (z_controller_fields verbatim verbatim
                (tabbed ["Name"; "on"; "Setpoint"; "P-gain"; "I-gain"; "T-const";
                         "log Current"; "Z"; "1"; "1.000E-10 A"; "6.0E-12 m"]))
      as (_ & Hok & _).
    by apply (Hok "1" "1.000E-10 A" "1.000E-10" ["A"] "1.000E-10").
  - destruct (z_controller_fields verbatim verbatim
                (tabbed ["log Current"; "1"; "1.000E-10 A"]))
      as (Hshort & _).
    apply Hshort. vm_compute. lia.
Defined.

(** ** The channel table *)

Lemma channel_loop_rows i names units lines :
  i ≠ 0%nat →
  channel_loop i names units lines =
    let rows := filter (λ e, 1 < length e)%nat (Py.str_split <$> lines) in
    match find (λ e, negb (row_supported e)) rows with
    | None => Returned (names ++ (row_name <$> rows), units ++ (row_unit <$> rows))
    | Some e =>
        Raised (if (length e <? 4)%nat then IndexError else NotImplementedError)
    end.
Proof.
  intros Hi. revert i Hi names units.
  induction lines as [|line lines IH]; intros i Hi names units; simpl.
  { by rewrite !app_nil_r. }
  assert (negb (i =? 0)%nat = true) as ->
    by (apply negb_true_iff, Nat.eqb_neq, Hi).
  rewrite andb_true_r.
  destruct (Py.str_split line) as [|a [|b [|c [|d rest]]]] eqn:Hsplit.
  - rewrite filter_cons_False by (simpl; lia). by apply IH.
  - rewrite filter_cons_False by (simpl; lia). by apply IH.
  - rewrite filter_cons_True by (simpl; lia). reflexivity.
  - rewrite filter_cons_True by (simpl; lia). reflexivity.
  - rewrite filter_cons_True by (simpl; lia).
    cbn [find length Nat.ltb Nat.leb list_getitem lookup list_lookup mbind
         outcome_bind andb row_supported].
    unfold row_supported. cbn [lookup list_lookup].
    destruct (String.eqb (Py.lower d) "both") eqn:Hmode; simpl; [|done].
    rewrite IH by done. cbv zeta.
    destruct (find _ _); [done|].
    by rewrite <- !app_assoc.
Qed.

(** C3, as the code has it: the rows are the lines after the first that
    have more than one whitespace-separated token; lines with no token or
    one token are skipped. As long as each row has at least four tokens
    and token 3 is ["both"] in any letter case, the parse yields one
    descriptor per row, in order: token 1 with underscores turned into
    spaces, and token 2. The first row that is not so ends the parse: with
    [NotImplementedError] when it has four tokens or more, and with
    [IndexError] when it has only two or three. *)
Theorem channel_table_rows (data_info : string) :
  let rows := data_rows data_info in
  channel_table data_info =
    match find (λ e, negb (row_supported e)) rows with
    | None => Returned (row_name <$> rows, row_unit <$> rows)
    | Some e =>
        Raised (if (length e <? 4)%nat then IndexError else NotImplementedError)
    end.
Proof.
  unfold channel_table, data_rows.
  destruct (Py.split_on Py.LF data_info) as [|first lines]; [done|].
  cbn [channel_loop fmap list_fmap tail].
  rewrite andb_false_r. by rewrite channel_loop_rows.
Qed.

(** C3, refuted as stated: the row ["14 Z"] has more than one token, yet
    the parse neither yields a descriptor for it nor reports the direction
    mode; it stops on the missing token 2. *)
Lemma channel_table_short_row :
  data_rows ("Channel Name Unit Direction" +:+ Py.nl +:+ "14 Z") = [["14"; "Z"]]
  ∧ channel_table ("Channel Name Unit Direction" +:+ Py.nl +:+ "14 Z")
    = Raised IndexError.
Proof. split; reflexivity. Qed.

(** ** The binary decoder *)

Lemma string_ind4 (P : string → Prop) :
  (∀ s, (String.length s < 4)%nat → P s) →
  (∀ a b c d s, P s → P (String a (String b (String c (String d s))))) →
  ∀ s, P s.
Proof.
  intros Hshort Hstep.
  assert (H : ∀ s, P s ∧ (∀ a, P (String a s)) ∧ (∀ a b, P (String a (String b s)))
                   ∧ (∀ a b c, P (String a (String b (String c s))))).
  { induction s as [|d s (H0 & H1 & H2 & H3)].
    - repeat split; intros; apply Hshort; simpl; lia.
    - repeat split; intros; auto. }
  intros s. apply H.
Qed.

Lemma read4_length f : String.length (read4 f) = (String.length f - 4)%nat.
Proof. destruct f as [|a [|b [|c [|d f]]]]; simpl; lia. Qed.

(** Asked for more items than the file holds, or for all of them,
    [read_f4] returns every whole item. *)
Lemma read_f4_short f :
  ∀ count, count < 0 ∨ Z.of_nat (String.length f / 4) ≤ count →
  length (read_f4 count f).1 = (String.length f / 4)%nat.
Proof.
  induction f as [f Hlen | a b c d f IH] using string_ind4; intros count Hc.
  - rewrite Nat.div_small by done.
    destruct f as [|a [|b [|c [|d f]]]]; simpl in *; try done. lia.
  - assert (Hdiv : (String.length (String a (String b (String c (String d f)))) / 4
                    = S (String.length f / 4))%nat).
    { cbn [String.length].
      replace (S (S (S (S (String.length f))))) with (1 * 4 + String.length f)%nat by lia.
      by rewrite Nat.div_add_l by lia. }
    rewrite Hdiv in *. cbn [read_f4].
    destruct (count =? 0) eqn:E; [apply Z.eqb_eq in E; lia|].
    specialize (IH (count - 1)).
    destruct (read_f4 (count - 1) f) as [vs r]. simpl in *.
    rewrite IH; [done | lia].
Qed.

(** Asked for exactly the items that are there, it returns them and stops
    in front of what follows. *)
Lemma read_f4_pack ws rest :
  read_f4 (Z.of_nat (length ws)) (pack ws rest) = (f4 <$> ws, rest).
Proof.
  induction ws as [|[[[b0 b1] b2] b3] ws IH].
  - simpl. by destruct rest as [|a [|b [|c [|d f]]]].
  - cbn [pack read_f4 length].
    destruct (Z.of_nat (S (length ws)) =? 0) eqn:E;
      [apply Z.eqb_eq in E; lia|].
    replace (Z.of_nat (S (length ws)) - 1) with (Z.of_nat (length ws)) by lia.
    by rewrite IH.
Qed.

Lemma intp_spec n : intp n = true ↔ intp_min ≤ n ≤ intp_max.
Proof. unfold intp. rewrite andb_true_iff, !Z.leb_le. done. Qed.

Lemma mul_sizes_Some dims :
  ∀ acc s, mul_sizes acc dims = Some s → s = acc * foldr Z.mul 1 dims.
Proof.
  induction dims as [|d dims IH]; intros acc s; cbn [mul_sizes foldr].
  - intros [= <-]. lia.
  - destruct (intp_max <? acc * d); [done|]. intros H%IH. lia.
Qed.

Lemma product_positive dims :
  Forall (λ d, 0 < d) dims → 0 < foldr Z.mul 1 dims.
Proof. induction 1; cbn [foldr]; lia. Qed.

Lemma mul_sizes_fits dims :
  ∀ acc,
    0 < acc → Forall (λ d, 0 < d) dims →
    acc * foldr Z.mul 1 dims ≤ intp_max →
    mul_sizes acc dims = Some (acc * foldr Z.mul 1 dims).
Proof.
  induction dims as [|d dims IH]; intros acc Hacc Hpos Hfit;
    cbn [mul_sizes foldr] in *.
  - f_equal. lia.
  - apply Forall_cons in Hpos as [Hd Hpos].
    pose proof (product_positive dims Hpos) as Hprod.
    assert ((intp_max <? acc * d) = false) as -> by nia.
    rewrite IH; [f_equal; lia | nia | done | nia].
Qed.

Lemma reshape_exact raw n y x :
  0 < n → 0 < y → 0 < x →
  4 * (n * (2 * (y * x))) ≤ intp_max →
  Z.of_nat (length raw) = n * (2 * (y * x)) →
  reshape raw [n; 2; y; x] = Returned (NdArray [n; 2; y; x] raw).
Proof.
  intros Hn Hy Hx Hfit Hsize. unfold reshape, view, nbytes.
  assert (Hmin : intp_min < 0) by done.
  assert (Hpos : Forall (λ d, 0 < d) [n; 2; y; x])
    by (repeat constructor; lia).
  assert (Hyx : 1 ≤ y * x) by nia.
  assert (Hy' : y ≤ y * x) by nia.
  assert (Hx' : x ≤ y * x) by nia.
  assert (Hn' : n ≤ n * (2 * (y * x))) by nia.
  assert (Hyx' : y * x ≤ n * (2 * (y * x))) by nia.
  assert (forallb intp [n; 2; y; x] = true) as ->.
  { simpl. rewrite !andb_true_iff. repeat split; try done;
      apply intp_spec; lia. }
  cbn [negb].
  rewrite !filter_cons, !filter_nil.
  repeat case_decide; try lia.
  rewrite !mul_sizes_fits by (done || (cbn [foldr]; lia)).
  cbn [length foldr]. rewrite Hsize.
  replace (1 * (n * (2 * (y * (x * 1))))) with (n * (2 * (y * x))) by lia.
  by rewrite Z.eqb_refl.
Qed.

Lemma fromfile_pack ws rest :
  4 * Z.of_nat (length ws) ≤ intp_max →
  fromfile (pack ws rest) (Z.of_nat (length ws)) = Returned (f4 <$> ws, rest).
Proof.
  intros Hfit. unfold fromfile, nbytes.
  assert (Hmin : intp_min < 0) by done.
  assert (intp (Z.of_nat (length ws)) = true) as -> by (apply intp_spec; lia).
  rewrite read_f4_pack. rewrite filter_cons, filter_nil.
  case_decide; cbn [mul_sizes]; [|done].
  by assert ((intp_max <? 4 * Z.of_nat (length ws)) = false) as -> by lia.
Qed.

Lemma f4_big_endian w : f4 w = big_endian w.
Proof. destruct w as [[[b0 b1] b2] b3]. unfold f4, big_endian, f4_be. lia. Qed.

Lemma f4_fmap_big_endian (ws : list item) : f4 <$> ws = big_endian <$> ws.
Proof. apply list_fmap_ext. intros _ w _. apply f4_big_endian. Qed.

Lemma plane_slab vals n y x i d :
  0 ≤ i < n → 0 ≤ d < 2 →
  plane (NdArray [n; 2; y; x] vals) i d
  = Returned (NdArray [y; x] (slab vals y x (i * 2 + d))).
Proof.
  intros Hi Hd. unfold plane, slab. cbn [shape buf].
  assert ((i <? n) = true) as -> by lia.
  assert ((d <? 2) = true) as -> by lia.
  done.
Qed.

(** The loop binds each name to its two slabs; a name that comes again
    later is bound again. *)
Lemma bind_channels_lookup vals n y x names :
  ∀ i data,
    0 ≤ i → i + Z.of_nat (length names) ≤ n →
    ∃ data',
      bind_channels (NdArray [n; 2; y; x] vals) i names data = Returned data'
      ∧ (∀ nm, nm ∉ names → data' !! nm = data !! nm)
      ∧ (∀ k nm,
           names !! k = Some nm →
           (∀ j, (k < j)%nat → names !! j ≠ Some nm) →
           data' !! nm
           = Some (Grids (NdArray [y; x] (slab vals y x ((i + Z.of_nat k) * 2 + 0)))
                         (NdArray [y; x] (slab vals y x ((i + Z.of_nat k) * 2 + 1))))).
Proof.
  induction names as [|nm0 names IH]; intros i data Hi Hn.
  - exists data. by repeat split.
  - cbn [bind_channels length] in *.
    rewrite !plane_slab by lia. simpl.
    destruct (IH (i + 1)
                (<[nm0 := Grids (NdArray [y; x] (slab vals y x (i * 2 + 0)))
                                (NdArray [y; x] (slab vals y x (i * 2 + 1)))]> data))
      as (data' & Hrun & Hout & Hin); [lia | lia |].
    exists data'. split; [done|]. split.
    + intros nm Hnm. apply not_elem_of_cons in Hnm as [Hne Hnm].
      rewrite Hout by done. by rewrite lookup_insert_ne.
    + intros [|k] nm Hk Hlast.
      * injection Hk as ->.
        assert (nm ∉ names) as Hnm.
        { intros [j Hj]%list_elem_of_lookup. by apply (Hlast (S j)); [lia|]. }
        rewrite Hout by done. rewrite lookup_insert_eq.
        by replace (i + Z.of_nat 0) with i by lia.
      * replace (i + Z.of_nat (S k)) with (i + 1 + Z.of_nat k) by lia.
        apply (Hin k nm Hk).
        intros j Hj. apply (Hlast (S j)). lia.
Qed.

(** Row-major order inside a slab. *)
Lemma item2_slab vals y x p r c :
  0 ≤ p → 0 ≤ r < y → 0 ≤ c < x →
  (p + 1) * (y * x) ≤ Z.of_nat (length vals) →
  item2 (NdArray [y; x] (slab vals y x p)) r c
  = vals !! Z.to_nat ((p * y + r) * x + c)
  ∧ is_Some (vals !! Z.to_nat ((p * y + r) * x + c)).
Proof.
  intros Hp Hr Hc Hlen. unfold item2, slab. cbn [shape buf].
  assert ((r <? y) = true) as -> by lia.
  assert ((c <? x) = true) as -> by lia.
  cbn [andb].
  assert (Hrc : r * x + c < y * x) by nia.
  assert (Hrc0 : 0 ≤ r * x + c) by nia.
  rewrite lookup_take_lt by lia.
  rewrite lookup_drop.
  replace (Z.to_nat (p * (y * x)) + Z.to_nat (r * x + c))%nat
    with (Z.to_nat ((p * y + r) * x + c)) by nia.
  split; [done|]. apply lookup_lt_is_Some. nia.
Qed.

(** C4: the decoder drops four bytes, reads [x * y * channels * 2]
    big-endian 32-bit items and leaves the file right behind them. The flat
    sequence is taken as a row-major tensor of shape
    [(channels, 2, y, x)]: channel [i] gets as [forward] the slab
    [tensor[i, 0, :, :]] and as [backward] the slab [tensor[i, 1, :, :]],
    each of shape [(y, x)], whose element [(r, c)] is the item at flat
    index [((i * 2 + d) * y + r) * x + c]. The map is keyed by channel
    name, so a name is looked up at its last position in the list. This
    holds for positive pixel counts, at least one channel, and a tensor
    whose size in bytes fits [npy_intp]. *)
Theorem read_binary_data_layout (x y : Z) (names : list string)
    (s0 s1 s2 s3 : ascii) (ws : list item) (rest : string) :
  let n := Z.of_nat (length names) in
  let vals := big_endian <$> ws in
  0 < x → 0 < y → names ≠ [] →
  4 * (x * y * n * 2) ≤ intp_max →
  Z.of_nat (length ws) = x * y * n * 2 →
  ∃ data,
    _read_binary_data [x; y] names
      (String s0 (String s1 (String s2 (String s3 (pack ws rest)))))
    = Returned (data, rest)
    ∧ ∀ i nm,
        names !! i = Some nm →
        (∀ j, (i < j)%nat → names !! j ≠ Some nm) →
        ∃ g,
          data !! nm = Some g
          ∧ forward g = NdArray [y; x] (slab vals y x (Z.of_nat i * 2 + 0))
          ∧ backward g = NdArray [y; x] (slab vals y x (Z.of_nat i * 2 + 1))
          ∧ ∀ r c, 0 ≤ r < y → 0 ≤ c < x →
              item2 (forward g) r c
              = vals !! Z.to_nat (((Z.of_nat i * 2 + 0) * y + r) * x + c)
              ∧ item2 (backward g) r c
                = vals !! Z.to_nat (((Z.of_nat i * 2 + 1) * y + r) * x + c)
              ∧ is_Some (item2 (forward g) r c)
              ∧ is_Some (item2 (backward g) r c).
Proof.
  intros n vals Hx Hy Hnames Hfit Hlen.
  assert (Hn : 0 < n) by (unfold n; destruct names; [done | simpl; lia]).
  unfold _read_binary_data. cbn [read4]. fold n.
  rewrite <- Hlen, fromfile_pack by lia.
  cbn [mbind outcome_bind mret outcome_ret].
  rewrite f4_fmap_big_endian. fold vals.
  assert (Hsize : Z.of_nat (length vals) = n * (2 * (y * x))).
  { unfold vals. rewrite length_fmap. lia. }
  rewrite reshape_exact by (done || lia). cbn [mbind outcome_bind].
  destruct (bind_channels_lookup vals n y x names 0 ∅)
    as (data & Hrun & _ & Hin); [lia | lia |].
  exists data. rewrite Hrun. split; [done|].
  intros i nm Hi Hlast.
  specialize (Hin i nm Hi Hlast). rewrite Z.add_0_l in Hin.
  eexists. split; [exact Hin|]. cbn [forward backward].
  split; [done|]. split; [done|].
  intros r c Hr Hc.
  assert (Hi' : Z.of_nat i < n).
  { apply lookup_lt_Some in Hi. lia. }
  destruct (item2_slab vals y x (Z.of_nat i * 2 + 0) r c) as [Hf Hfs];
    [nia | done | done | nia |].
  destruct (item2_slab vals y x (Z.of_nat i * 2 + 1) r c) as [Hb Hbs];
    [nia | done | done | nia |].
  rewrite Hf, Hb. by repeat split.
Qed.

(** C5: a stream that holds fewer whole items behind its signature than
    [x * y * channels * 2] makes the decoder fail; no grid is produced. *)
Theorem truncated_payload_raises (x y : Z) (names : list string) (f : string) :
  payload_floats f < x * y * Z.of_nat (length names) * 2 →
  raises (_read_binary_data [x; y] names f).
Proof.
  unfold payload_floats, _read_binary_data, fromfile.
  set (n := Z.of_nat (length names)). set (total := x * y * n * 2).
  rewrite <- read4_length. intros Hshort.
  destruct (intp total); [|by eexists].
  destruct (nbytes [total]); [|by eexists].
  pose proof (read_f4_short (read4 f) total) as Hraw.
  destruct (read_f4 total (read4 f)) as [raw f'].
  cbn [mbind outcome_bind fst] in *.
  rewrite <- Hraw in Hshort by lia. clear Hraw.
  assert (reshape raw [n; 2; y; x] = Raised ValueError) as ->; [|by eexists].
  unfold reshape. destruct (forallb intp _); [|done]. cbn [negb].
  destruct (mul_sizes 1 _) as [s_known|] eqn:Hknown; [|done].
  apply mul_sizes_Some in Hknown. revert Hknown.
  rewrite !filter_cons, !filter_nil.
  repeat case_decide; cbn [length foldr]; try done; try nia.
  intros ->.
  replace (1 * (n * (2 * (y * (x * 1))))) with total by (unfold total; lia).
  by assert ((Z.of_nat (length raw) =? total) = false) as -> by lia.
Qed.

Example sample_loads :
  ∃ data,
    load verbatim verbatim 100 sample_file false
    = Some (Returned (Image sample_header sample_meta (Some data)))
    ∧ data !! "Z"
      = Some (Grids (NdArray [3; 2] [1; 2; 3; 4; 5; 6])
                    (NdArray [3; 2] [7; 8; 9; 10; 11; 12])).
Proof. eexists. split; vm_compute; reflexivity. Qed.

(** ** The two boundary scans *)

Lemma binary_lines_readline f :
  f ≠ "" → binary_lines f = (readline f).1 :: binary_lines (readline f).2.
Proof.
  induction f as [|c f IH]; [done|]. intros _. cbn [binary_lines readline].
  destruct (Ascii.eqb c Py.LF); [done|].
  destruct f as [|c' f']; [done|].
  rewrite IH by done. by destruct (readline (String c' f')).
Qed.

(** Without a terminator line the binary-mode scan never leaves its loop:
    at the end of the file [readline] keeps returning [b'']. *)
Lemma seek_scanit_end_diverges f :
  Forall (λ l, Py.bytes_strip l ≠ SCANIT_END) (binary_lines f) →
  ∀ fuel, seek_scanit_end fuel f = None.
Proof.
  intros Hf fuel. revert f Hf.
  induction fuel as [|fuel IH]; intros f Hf; [done|].
  cbn [seek_scanit_end].
  destruct (decide (f = "")) as [->|Hne].
  - simpl. by apply IH.
  - rewrite binary_lines_readline in Hf by done.
    destruct (readline f) as [line f']. cbn [fst snd] in Hf.
    apply Forall_cons in Hf as [Hline Hf].
    apply String.eqb_neq in Hline. rewrite Hline. by apply IH.
Qed.

(** C8, at a failing input: the sample file with a no-break space in front
    of the terminator. Both scans see the same line there; the text-mode
    pass strips the byte 0xA0 as whitespace, takes the line for the
    terminator and stops on it, the binary-mode pass does not strip it and
    runs past it, so the load never returns. *)
Theorem boundary_scans_disagree :
  let line := nbsp_terminator +:+ Py.nl in
  let st := header_loop ∅ "" "" 0 (text_lines nbsp_file) in
  text_lines nbsp_file !! 26%nat = Some line
  ∧ binary_lines nbsp_file !! 26%nat = Some line
  ∧ String.eqb (Py.str_strip line) SCANIT_END = true
  ∧ String.eqb (Py.bytes_strip line) SCANIT_END = false
  ∧ lx_broke st = true
  ∧ lx_taken st = 27%nat
  ∧ load_header verbatim verbatim nbsp_file = Returned (sample_header, sample_meta)
  ∧ (∀ fuel, seek_scanit_end fuel nbsp_file = None)
  ∧ (∀ fuel, load verbatim verbatim fuel nbsp_file false = None).
Proof.
  assert (Hseek : ∀ fuel, seek_scanit_end fuel nbsp_file = None).
  { apply seek_scanit_end_diverges. by vm_compute; repeat constructor. }
  assert (Hhead : load_header verbatim verbatim nbsp_file
                  = Returned (sample_header, sample_meta))
    by (vm_compute; reflexivity).
  repeat split; try (vm_compute; reflexivity); try done.
  intros fuel. unfold load. by rewrite Hhead, Hseek.
Qed.

(** ** The load as a whole *)

(** C9, as the code has it: on a file with no terminator line in binary
    mode the boundary scan of [load] never stops. The load reaches that
    scan when the header and metadata phases complete, and then it does not
    return; when one of them raises, the load ends with that exception
    before the scan begins. *)
Theorem load_unterminated {float_t datetime_t}
    (float_of : string → option float_t)
    (strptime : string → option datetime_t) (file : string) :
  Forall (λ l, Py.bytes_strip l ≠ SCANIT_END) (binary_lines file) →
  (∀ fuel, seek_scanit_end fuel file = None)
  ∧ (∀ hm, load_header float_of strptime file = Returned hm →
           ∀ fuel, load float_of strptime fuel file false = None)
  ∧ (∀ e, load_header float_of strptime file = Raised e →
          ∀ fuel, load float_of strptime fuel file false = Some (Raised e)).
Proof.
  intros Hf. pose proof (seek_scanit_end_diverges file Hf) as Hseek.
  split; [done|]. split.
  - intros [h m] Hhm fuel. unfold load. by rewrite Hhm, Hseek.
  - intros e He fuel. unfold load. by rewrite He.
Qed.

Lemma load_unterminated_witness :
  load verbatim verbatim 1000 open_file false = None.
Proof.
  assert (Hf : Forall (λ l, Py.bytes_strip l ≠ SCANIT_END) (binary_lines open_file))
    by (by vm_compute; repeat constructor).
  destruct (load_unterminated verbatim verbatim open_file Hf) as (_ & Hrun & _).
  apply (Hrun (sample_header, sample_meta)).
  vm_compute. reflexivity.
Defined.

(** C9, refuted as stated: the empty file has no terminator line, and its
    load ends at once, with the [KeyError] of the first missing field. *)
Lemma load_empty_file_raises :
  binary_lines "" = [] ∧ text_lines "" = []
  ∧ load verbatim verbatim 0 "" false = Some (Raised (KeyError "SCAN_FILE")).
Proof. repeat split. Qed.

(** ** Runs on the samples *)

Lemma scan_direction_exact_witness :
  scan_direction sample_meta = "up"
  ∧ Forall (λ w, scan_direction_of w = "down") ["down"; "Up"; "UP"; ""].
Proof.
  destruct (scan_direction_exact verbatim verbatim sample_header "up" sample_meta)
    as (Hup & _ & Hdown).
  - vm_compute. reflexivity.
  - vm_compute. reflexivity.
  - split; [by apply Hup | exact Hdown].
Defined.

(** The case of the specification: 2 by 3 pixels, one channel, twelve
    items; every item has four different bytes, so the values show the
    byte order. *)
Lemma read_binary_data_layout_witness :
  ∃ data,
    _read_binary_data [2; 3] ["Z"] mixed_payload = Returned (data, "tail")
    ∧ data !! "Z"
      = Some (Grids
                (NdArray [3; 2]
                   [17899825; 34742834; 51585843; 68428852; 85271861; 102114870])
                (NdArray [3; 2]
                   [118957879; 135800888; 152643897; 169486906; 186329915; 203172924])).
Proof.
  destruct (read_binary_data_layout 2 3 ["Z"] "010" "010" "026" "004"
              mixed_items "tail")
    as (data & Hrun & Hbind); [lia | lia | done | by vm_compute | by vm_compute |].
  exists data. split; [exact Hrun|].
  destruct (Hbind 0%nat "Z") as (g & Hg & Hfwd & Hbwd & _).
  - reflexivity.
  - intros [|[|j]] Hj; [lia | done | done].
  - rewrite Hg. destruct g as [fwd bwd]. simpl in Hfwd, Hbwd.
    rewrite Hfwd, Hbwd. reflexivity.
Defined.

Lemma truncated_payload_raises_witness :
  payload_floats ten_items = 10
  ∧ raises (_read_binary_data [2; 3] ["Z"] ten_items).
Proof.
  split; [reflexivity|].
  apply truncated_payload_raises. vm_compute. reflexivity.
Defined.

Example ten_items_ValueError :
  _read_binary_data [2; 3] ["Z"] ten_items = Raised ValueError.
Proof. reflexivity. Qed.

(** * Further properties of the code *)

(** ** Strings *)


Lemma append_cons c s t : String c s +:+ t = String c (s +:+ t).
Proof. reflexivity. Qed.

Lemma append_nil_r s : s +:+ "" = s.
Proof. induction s as [|c s IH]; [done|]. by rewrite append_cons, IH. Qed.


Lemma nonempty_false s : Py.nonempty s = false → s = "".
Proof. by destruct s. Qed.


Section StripFacts.
Variable sp : ascii → bool.








End StripFacts.





(** A caption with text behind its second colon: [line[1:-1]] drops the
    last character, whatever it is. *)
Example caption_without_closing_colon :
  Py.caption_match ":A: tail" = true
  ∧ _parse_header ∅ [":A: tail"; "v"; SCANIT_END] = Returned {["A tai" := "v"]}.
Proof. split; vm_compute; reflexivity. Qed.

(** ** More on the header lexer *)

















(** ** More on the metadata resolver *)










(** ** More on the boundary scans *)

Lemma readline_append f :
  (readline f).1 +:+ (readline f).2 = f.
Proof.
  induction f as [|c f IH]; [done|]. cbn [readline].
  destruct (Ascii.eqb c Py.LF); [done|].
  destruct (readline f) as [l r]. simpl in *. by rewrite append_cons, IH.
Qed.





Section StripExt.
Variables sp sp' : ascii → bool.







End StripExt.











(** ** More on the binary decoder *)








(** ** The load from end to end *)



(** ** The table of header keys *)






(** ** The printed channel table *)



